(** * Verification of the whylogs task wrappers and the breeze CI-group helper

    Two independent units of the repository are embedded here:

    - [CiGroup]: [dev/breeze/src/airflow_breeze/utils/ci_group.py], the
      generator-based context manager [ci_group] and its module-level flag
      [_in_ci_group];
    - [Whylogs]: [airflow/providers/whylogs/operators/whylogs.py], the two
      operators [WhylogsSummaryDriftOperator] and [WhylogsConstraintsOperator].

    Both are effectful: the first mutates a module global and prints to the
    console, the second calls into the external whylogs library, logs and
    raises.  State is passed explicitly and exceptions are a result
    constructor. *)

From stdpp Require Import base strings gmap list.

(* ===================================================================== *)
(** ** The CI-group context manager *)
(* ===================================================================== *)

Module CiGroup.

(** [MessageType] is an [Enum] declared in [airflow_breeze.utils.console];
    [ci_group] only reads the [.value] of the member it is given. *)
Record MessageType := mkMessageType { value : string }.

(** What [get_console().print] is called with.  [GroupStart] is the call of
    line 42, [GroupEnd] the call of line 44, [BlockLine] anything the wrapped
    block prints on its own. *)
Inductive line :=
  | GroupStart (message_type : MessageType) (title : string)
  | GroupEnd
  | BlockLine (text : string).

(** The text that reaches the console. *)
Definition render (l : line) : string :=
  match l with
  | GroupStart message_type title =>
      "::group::[" +:+ value message_type +:+ "]" +:+ title +:+ "[/]"
  | GroupEnd => "::endgroup::"
  | BlockLine text => text
  end.

Definition is_start (l : line) : bool :=
  match l with GroupStart _ _ => true | _ => false end.

Definition is_end (l : line) : bool :=
  match l with GroupEnd => true | _ => false end.

Definition is_marker (l : line) : bool := is_start l || is_end l.

(** A console entry remembers the value [_in_ci_group] had when the line was
    printed, so that statements can speak about the flag during the scope. *)
Record printed := Printed { active : bool; content : line }.

(** The process state [ci_group] touches: the module global and the console. *)
Record state := mkState { _in_ci_group : bool; console : list printed }.

(** Module import: [_in_ci_group = False], nothing printed yet. *)
Definition process_start : state := mkState false [].

(** What [ci_group] reads and never writes: [os.environ] and the result of
    [skip_group_putput()] (imported from [airflow_breeze.utils.path_utils]). *)
Record env := mkEnv { environ : gmap string string; skip_group_putput : bool }.

Definition console_print (l : line) (st : state) : state :=
  mkState (_in_ci_group st) (console st ++ [Printed (_in_ci_group st) l]).

Definition set_in_ci_group (b : bool) (st : state) : state :=
  mkState b (console st).

(** [os.environ.get(key, default)] *)
Definition environ_get (E : env) (key fallback : string) : string :=
  match environ E !! key with
  | Some v => v
  | None => fallback
  end.

(** *** The generator behind [@contextmanager]

    [ci_group] is a generator function with two [yield] statements.
    [contextmanager] runs it up to the first [yield] it reaches on
    [__enter__]; on [__exit__] it resumes it with [next] when the block ended
    normally and with [gen.throw(exc)] when the block raised. *)

Inductive suspended :=
  | Yield39   (* the [yield] of line 39, followed by [return] *)
  | Yield43.  (* the [yield] of line 43, between the two markers *)

(** Line 38: [_in_ci_group or skip_group_putput() or
    os.environ.get('GITHUB_ACTIONS', 'false') != "true"]. *)
Definition no_group (E : env) (st : state) : bool :=
  _in_ci_group st
  || skip_group_putput E
  || negb (String.eqb (environ_get E "GITHUB_ACTIONS" "false") "true").

(** [__enter__]: lines 37-39 or 37-43. *)
Definition ci_group_enter (E : env) (title : string) (message_type : MessageType)
    (st : state) : suspended * state :=
  if no_group E st then (Yield39, st)
  else
    let st := set_in_ci_group true st in
    let st := console_print (GroupStart message_type title) st in
    (Yield43, st).

(** [__exit__(None, None, None)]: the generator is resumed with [next];
    line 40 after the first [yield], lines 44-45 after the second. *)
Definition ci_group_next (k : suspended) (st : state) : state :=
  match k with
  | Yield39 => st
  | Yield43 =>
      let st := console_print GroupEnd st in
      set_in_ci_group false st
  end.

(** [__exit__(type, exc, tb)]: [gen.throw(exc)] raises [exc] at the suspended
    [yield].  Neither [yield] is inside a [try] statement, so the exception
    leaves the generator at once and no statement after the [yield] runs. *)
Definition ci_group_throw (k : suspended) (st : state) : state :=
  match k with
  | Yield39 => st
  | Yield43 => st
  end.

(** *** Wrapped blocks

    The body of a [with ci_group(...):] statement is arbitrary code; what
    matters to [ci_group] is whether it prints, raises, catches, or enters
    [ci_group] again.  The global [_in_ci_group] is private to the module and
    is written by [ci_group] only; [os.environ] and [skip_group_putput()] are
    taken to be the same for the whole run. *)

Inductive block :=
  | Pass
  | Print (text : string)
  | Raise (exc : string)
  | Seq (b1 b2 : block)
  | TryExcept (body handler : block)
  | With_ci_group (title : string) (message_type : MessageType) (body : block).

Inductive outcome :=
  | Normal
  | Raised (exc : string).

Fixpoint exec (E : env) (b : block) (st : state) : outcome * state :=
  match b with
  | Pass => (Normal, st)
  | Print text => (Normal, console_print (BlockLine text) st)
  | Raise exc => (Raised exc, st)
  | Seq b1 b2 =>
      match exec E b1 st with
      | (Normal, st1) => exec E b2 st1
      | (Raised exc, st1) => (Raised exc, st1)
      end
  | TryExcept body handler =>
      match exec E body st with
      | (Normal, st1) => (Normal, st1)
      | (Raised _, st1) => exec E handler st1
      end
  | With_ci_group title message_type body =>
      let '(k, st1) := ci_group_enter E title message_type st in
      match exec E body st1 with
      | (Normal, st2) => (Normal, ci_group_next k st2)
      | (Raised exc, st2) => (Raised exc, ci_group_throw k st2)
      end
  end.

(** The group markers among some printed lines. *)
Definition markers (ps : list printed) : list printed :=
  List.filter (fun p => is_marker (content p)) ps.

Definition starts (ps : list printed) : list printed :=
  List.filter (fun p => is_start (content p)) ps.

Definition ends (ps : list printed) : list printed :=
  List.filter (fun p => is_end (content p)) ps.

(** Lines that are not markers and were all printed under the flag [flag]. *)
Definition quiet (flag : bool) (ps : list printed) : Prop :=
  Forall (fun p => is_marker (content p) = false /\ active p = flag) ps.

(** A process running under GitHub Actions, and one running elsewhere. *)
Definition github_env : env :=
  mkEnv {[ "GITHUB_ACTIONS" := "true" ]} false.

Definition local_env : env := mkEnv ∅ false.

Definition INFO : MessageType := mkMessageType "info".

(** What a run of [b] from [st] adds to the console. *)
Definition printed_by (E : env) (b : block) (st : state) : list printed :=
  drop (length (console st)) (console (exec E b st).2).

(** Reads the group markers of some printed lines the way the GitHub log
    viewer does: [opened] says whether a group is open.  A start marker
    inside an open group, or an end marker with no group open, is a nesting
    error ([None]); otherwise the result says whether a group is open after
    the last line. *)
Fixpoint track (opened : bool) (ps : list printed) : option bool :=
  match ps with
  | [] => Some opened
  | p :: ps =>
      match content p with
      | GroupStart _ _ => if opened then None else track true ps
      | GroupEnd => if opened then track false ps else None
      | BlockLine _ => track opened ps
      end
  end.

(** The lines the wrapped code printed itself, in order. *)
Fixpoint own_lines (ps : list printed) : list string :=
  match ps with
  | [] => []
  | p :: ps =>
      match content p with
      | BlockLine text => text :: own_lines ps
      | _ => own_lines ps
      end
  end.

(** The same code with every [with ci_group(...):] replaced by its body. *)
Fixpoint strip (b : block) : block :=
  match b with
  | Seq b1 b2 => Seq (strip b1) (strip b2)
  | TryExcept body handler => TryExcept (strip body) (strip handler)
  | With_ci_group _ _ body => strip body
  | _ => b
  end.

(** Code with no [raise] anywhere. *)
Fixpoint raise_free (b : block) : bool :=
  match b with
  | Raise _ => false
  | Seq b1 b2 => raise_free b1 && raise_free b2
  | TryExcept body handler => raise_free body && raise_free handler
  | With_ci_group _ _ body => raise_free body
  | _ => true
  end.

End CiGroup.

(* ===================================================================== *)
(** ** The whylogs operators *)
(* ===================================================================== *)

Module Whylogs.

(** *** The whylogs library

    Everything the operators do goes through calls into whylogs
    ([why.reader], [.read], [.view], [SummaryDriftReport], [.writer],
    [.write], [ConstraintsBuilder], [.add_constraint], [.build],
    [.validate], [.report]).  The library is not part of the repository: it
    is an interface here.  [World] is whatever the library reads and writes
    (profile storage, report destinations, its mutable objects such as a
    builder under construction); every call may raise an [Error] of the
    library's own and may change the [World]. *)
Record Library := mkLibrary {
  World : Type;
  Error : Type;
  Reader : Type;
  ResultSet : Type;
  DatasetProfileView : Type;
  SummaryDriftReport_t : Type;
  Writer : Type;
  ConstraintsBuilder_t : Type;
  MetricConstraint : Type;
  Constraints : Type;
  ConstraintsReport : Type;
  why_reader : option string -> World -> (Error + Reader) * World;
  read : Reader -> option string -> World -> (Error + ResultSet) * World;
  view : ResultSet -> World -> (Error + DatasetProfileView) * World;
  SummaryDriftReport :
    DatasetProfileView -> DatasetProfileView ->
    World -> (Error + SummaryDriftReport_t) * World;
  writer_of : SummaryDriftReport_t -> option string -> World -> (Error + Writer) * World;
  write : Writer -> string -> World -> (Error + unit) * World;
  ConstraintsBuilder :
    DatasetProfileView -> World -> (Error + ConstraintsBuilder_t) * World;
  add_constraint :
    ConstraintsBuilder_t -> option MetricConstraint -> World -> (Error + unit) * World;
  build : ConstraintsBuilder_t -> World -> (Error + Constraints) * World;
  validate : Constraints -> World -> (Error + bool) * World;
  report : Constraints -> World -> (Error + ConstraintsReport) * World
}.

Section Operators.
Context {L : Library}.

(** The library calls an operator can make, with their arguments. *)
Inductive call :=
  | Call_why_reader (name : option string)
  | Call_read (r : Reader L) (path : option string)
  | Call_view (p : ResultSet L)
  | Call_SummaryDriftReport (ref_view target_view : DatasetProfileView L)
  | Call_writer (rep : SummaryDriftReport_t L) (name : option string)
  | Call_write (w : Writer L) (dest : string)
  | Call_ConstraintsBuilder (v : DatasetProfileView L)
  | Call_add_constraint (b : ConstraintsBuilder_t L) (c : option (MetricConstraint L))
  | Call_build (b : ConstraintsBuilder_t L)
  | Call_validate (cs : Constraints L)
  | Call_report (cs : Constraints L).

(** [self.log] *)
Inductive level := INFO | WARNING | ERROR.

Inductive message :=
  | Text (s : string)
  | ReportObject (r : ConstraintsReport L).

(** What can leave [execute] as an exception. *)
Inductive exn :=
  | AirflowFailException (msg : string)
  | LibraryError (e : Error L).

Inductive result (A : Type) :=
  | Ok (a : A)
  | Raise (e : exn).
Arguments Ok {A} a.
Arguments Raise {A} e.

(** The state of a task invocation: the library's world, the library calls
    made so far, each with the error it raised if it raised one, and the
    records written to the task log. *)
Record state := mkState {
  world : World L;
  calls : list (call * option (Error L));
  log : list (level * message)
}.

Definition M (A : Type) : Type := state -> result A * state.

Definition ret {A} (a : A) : M A := fun st => (Ok a, st).

Definition bind {A B} (m : M A) (k : A -> M B) : M B := fun st =>
  match m st with
  | (Ok a, st1) => k a st1
  | (Raise e, st1) => (Raise e, st1)
  end.

Definition raise {A} (e : exn) : M A := fun st => (Raise e, st).

(** A call into the library: a result comes back, or the library's error
    leaves the call as a Python exception. *)
Definition lib {A} (c : call) (f : World L -> (Error L + A) * World L) : M A :=
  fun st =>
    match f (world st) with
    | (inr a, w) => (Ok a, mkState w (calls st ++ [(c, None)]) (log st))
    | (inl e, w) => (Raise (LibraryError e), mkState w (calls st ++ [(c, Some e)]) (log st))
    end.

Definition log_at (lvl : level) (msg : message) : M unit := fun st =>
  (Ok tt, mkState (world st) (calls st) (log st ++ [(lvl, msg)])).

End Operators.

Arguments Ok {L A} a.
Arguments Raise {L A} e.

Declare Scope py_scope.
Delimit Scope py_scope with py.
Notation "'let*' x := m 'in' k" := (bind m (fun x => k))
  (at level 10, x name, m at level 100, k at level 200) : py_scope.
Notation "'run' m 'in' k" := (bind m (fun _ => k))
  (at level 10, m at level 100, k at level 200) : py_scope.
Local Open Scope py_scope.

(** Unfolds the monad down to matches on the library's answers. *)
Ltac unfold_monad := unfold bind, lib, log_at, raise, ret in *.

(** Splits on the answer of the next library call. *)
Ltac next_call :=
  match goal with
  | |- context [match ?f (world ?st) with _ => _ end] =>
      destruct (f (world st)) as [[?e|?a] ?w]; simpl
  | |- context [match ?f ?w with _ => _ end] =>
      destruct (f w) as [[?e|?a] ?w']; simpl
  end.

Section Calls.
Context {L : Library}.

(** The library calls a computation adds to the trace when run from [st]. *)
Definition calls_by {A} (m : M (L:=L) A) (st : state) : list (call * option (Error L)) :=
  drop (length (calls st)) (calls (m st).2).

Definition is_read (c : call (L:=L)) : bool :=
  match c with Call_read _ _ => true | _ => false end.

Definition is_add_constraint (c : call (L:=L)) : bool :=
  match c with Call_add_constraint _ _ => true | _ => false end.

Definition is_validate (c : call (L:=L)) : bool :=
  match c with Call_validate _ => true | _ => false end.

Definition is_report (c : call (L:=L)) : bool :=
  match c with Call_report _ => true | _ => false end.

(** How many of the calls in a trace are of the kind [p]. *)
Definition made (p : call (L:=L) -> bool) (cs : list (call * option (Error L))) : nat :=
  length (List.filter (fun x => p x.1) cs).

End Calls.

(** [str(x)] for an [Optional[str]], as an f-string does it. *)
Definition str (x : option string) : string :=
  match x with
  | Some s => s
  | None => "None"
  end.

(** Truth value of an [Optional[bool]]. *)
Definition truthy (x : option bool) : bool :=
  match x with
  | Some b => b
  | None => false
  end.

(** [x is False], for [x] a [bool]. *)
Definition is_False (x : bool) : bool := negb x.

(** Splits on the value [validate] returned. *)
Ltac split_result :=
  match goal with
  | |- context [is_False ?b] => is_var b; destruct b; simpl
  end.

(** *** [class WhylogsSummaryDriftOperator(BaseOperator)] *)
Module WhylogsSummaryDriftOperator.
Section Operator.
Context {L : Library}.

(** The attributes [__init__] stores (lines 67-71). *)
Record t := mk {
  target_profile_path : string;
  reference_profile_path : string;
  write_report_path : string;
  reader : option string;
  writer : option string
}.

(** [__init__], with the defaults [reader="local"], [writer="local"] for the
    keyword arguments left out. *)
Definition init (target_profile_path reference_profile_path write_report_path : string)
    (reader writer : option (option string)) : t :=
  mk target_profile_path reference_profile_path write_report_path
     (default (Some "local") reader) (default (Some "local") writer).

(** Lines 73-79.  The method ends without a [return]: it yields [None],
    rendered as [tt]. *)
Definition execute (self : t) : M (L:=L) unit :=
  let* r := lib (Call_why_reader (reader self)) (why_reader L (reader self)) in
  let* p := lib (Call_read r (Some (reference_profile_path self)))
                (read L r (Some (reference_profile_path self))) in
  let* reference_view := lib (Call_view p) (view L p) in
  let* r := lib (Call_why_reader (reader self)) (why_reader L (reader self)) in
  let* p := lib (Call_read r (Some (target_profile_path self)))
                (read L r (Some (target_profile_path self))) in
  let* target_view := lib (Call_view p) (view L p) in
  let* report := lib (Call_SummaryDriftReport reference_view target_view)
                     (SummaryDriftReport L reference_view target_view) in
  let* w := lib (Call_writer report (writer self)) (writer_of L report (writer self)) in
  run lib (Call_write w (write_report_path self)) (write L w (write_report_path self)) in
  run log_at INFO
        (Text ("Whylogs' summary drift report successfully written to "
               +:+ str (writer self))) in
  ret tt.

End Operator.
End WhylogsSummaryDriftOperator.

(** *** [class WhylogsConstraintsOperator(BaseOperator)] *)
Module WhylogsConstraintsOperator.
Section Operator.
Context {L : Library}.

(** The attributes [__init__] stores (lines 178-182); all default to [None]
    except [break_pipeline], which defaults to [False]. *)
Record t := mk {
  profile_path : option string;
  reader : option string;
  constraint : option (MetricConstraint L);
  constraints : option (Constraints L);
  break_pipeline : option bool
}.

(** [__init__]; [break_pipeline] is [False] when the keyword is left out. *)
Definition init (profile_path reader : option string)
    (constraint : option (MetricConstraint L)) (constraints : option (Constraints L))
    (break_pipeline : option (option bool)) : t :=
  mk profile_path reader constraint constraints (default (Some false) break_pipeline).

(** Lines 184-192. *)
Definition _get_or_create_constraints (self : t) : M (L:=L) (Constraints L) :=
  match constraints self with
  | None =>
      let* r := lib (Call_why_reader (reader self)) (why_reader L (reader self)) in
      let* p := lib (Call_read r (profile_path self)) (read L r (profile_path self)) in
      let* profile_view := lib (Call_view p) (view L p) in
      let* builder := lib (Call_ConstraintsBuilder profile_view)
                          (ConstraintsBuilder L profile_view) in
      run lib (Call_add_constraint builder (constraint self))
              (add_constraint L builder (constraint self)) in
      let* constraints := lib (Call_build builder) (build L builder) in
      ret constraints
  | Some constraints => ret constraints
  end.

Definition AirflowFailException_message : string :=
  "Constraints didn't meet the criteria".

(** Lines 194-204. *)
Definition execute (self : t) : M (L:=L) bool :=
  let* constraints := _get_or_create_constraints self in
  let* result := lib (Call_validate constraints) (validate L constraints) in
  run (if is_False result && truthy (break_pipeline self) then
         let* rep := lib (Call_report constraints) (report L constraints) in
         run log_at ERROR (ReportObject rep) in
         raise (AirflowFailException AirflowFailException_message)
       else if is_False result && negb (truthy (break_pipeline self)) then
         let* rep := lib (Call_report constraints) (report L constraints) in
         log_at WARNING (ReportObject rep)
       else
         let* rep := lib (Call_report constraints) (report L constraints) in
         log_at INFO (ReportObject rep)) in
  ret result.

End Operator.
Arguments t : clear implicits.
End WhylogsConstraintsOperator.

End Whylogs.

(* ===================================================================== *)
(** ** A small whylogs, to run the operators on *)
(* ===================================================================== *)

(** One concrete [Library].  A profile is the mean of one column; a metric
    constraint is a closed range the mean has to lie in; a builder is an
    index into the builders the world holds; only the ["local"] reader and
    writer exist. *)
Module SimpleLibrary.
Import Whylogs.

Record storage := mkStorage {
  profiles : gmap string Z;
  builders : list (Z * list (Z * Z));
  reports : gmap string (Z * Z)
}.

Definition local_only (name : option string) (w : storage) : (string + string) * storage :=
  if decide (name = Some "local") then (inr "local", w)
  else (inl "no such reader or writer", w).

Definition read_profile (r : string) (path : option string) (w : storage)
    : (string + Z) * storage :=
  match path with
  | None => (inl "path is None", w)
  | Some path =>
      match profiles w !! path with
      | Some p => (inr p, w)
      | None => (inl "FileNotFoundError", w)
      end
  end.

Definition new_builder (v : Z) (w : storage) : (string + nat) * storage :=
  (inr (length (builders w)),
   mkStorage (profiles w) (builders w ++ [(v, [])]) (reports w)).

Definition add_to_builder (b : nat) (c : option (Z * Z)) (w : storage)
    : (string + unit) * storage :=
  match c, builders w !! b with
  | Some c, Some (v, cs) =>
      (inr tt, mkStorage (profiles w) (<[b := (v, cs ++ [c])]> (builders w)) (reports w))
  | None, _ => (inl "constraint is None", w)
  | _, None => (inl "no such builder", w)
  end.

Definition build_builder (b : nat) (w : storage) : (string + Z * list (Z * Z)) * storage :=
  match builders w !! b with
  | Some cs => (inr cs, w)
  | None => (inl "no such builder", w)
  end.

Definition holds (v : Z) (c : Z * Z) : bool := (c.1 <=? v)%Z && (v <=? c.2)%Z.

Definition write_report (rep : Z * Z) (dest : string) (w : storage)
    : (string + unit) * storage :=
  if decide (dest = "") then (inl "IsADirectoryError", w)
  else (inr tt, mkStorage (profiles w) (builders w) (<[dest := rep]> (reports w))).

Definition simple : Library := {|
  World := storage;
  Error := string;
  Reader := string;
  ResultSet := Z;
  DatasetProfileView := Z;
  SummaryDriftReport_t := Z * Z;
  Writer := Z * Z;
  ConstraintsBuilder_t := nat;
  MetricConstraint := Z * Z;
  Constraints := Z * list (Z * Z);
  ConstraintsReport := list (Z * Z * bool);
  why_reader := local_only;
  read := read_profile;
  view := fun p w => (inr p, w);
  SummaryDriftReport := fun ref_view target_view w => (inr (ref_view, target_view), w);
  writer_of := fun rep name w =>
    match local_only name w with
    | (inr _, w) => (inr rep, w)
    | (inl e, w) => (inl e, w)
    end;
  write := write_report;
  ConstraintsBuilder := new_builder;
  add_constraint := add_to_builder;
  build := build_builder;
  validate := fun cs w => (inr (forallb (holds cs.1) cs.2), w);
  report := fun cs w => (inr (map (fun c => (c, holds cs.1 c)) cs.2), w)
|}.

(** A store with one profile, as the example DAG leaves it. *)
Definition disk : storage :=
  mkStorage {[ "data/profile.bin" := 7%Z ]} [] ∅.

Definition start : state (L:=simple) := mkState (L:=simple) disk [] [].

(** The [summary_drift] task of the example DAG. *)
Definition summary_drift : WhylogsSummaryDriftOperator.t :=
  WhylogsSummaryDriftOperator.init
    "data/profile.bin" "data/profile.bin" "data/Profile.html" (Some (Some "local")) None.

(** A constraints task in the style of the example DAG's
    [greater_than_check_a]; the reader is given, since this library has no
    reader for [None]. *)
Definition check (lo hi : Z) (break_pipeline : option bool)
    : WhylogsConstraintsOperator.t simple :=
  WhylogsConstraintsOperator.mk (L:=simple)
    (Some "data/profile.bin") (Some "local") (Some (lo, hi)) None break_pipeline.

(** A constraints task that is handed a ready [Constraints] object. *)
Definition prebuilt (cs : Z * list (Z * Z)) (break_pipeline : option bool)
    : WhylogsConstraintsOperator.t simple :=
  WhylogsConstraintsOperator.mk (L:=simple) None None None (Some cs) break_pipeline.

(** The state [check lo hi _] reaches from [start] once its constraints are
    resolved. *)
Definition resolved (lo hi : Z) : state (L:=simple) :=
  mkState (L:=simple)
    (mkStorage (profiles disk) [(7%Z, [(lo, hi)])] ∅)
    [(Call_why_reader (Some "local"), None);
     (Call_read (L:=simple) "local" (Some "data/profile.bin"), None);
     (Call_view (L:=simple) 7%Z, None);
     (Call_ConstraintsBuilder (L:=simple) 7%Z, None);
     (Call_add_constraint (L:=simple) 0 (Some (lo, hi)), None);
     (Call_build (L:=simple) 0, None)]
    [].

(** A drift task whose destination cannot be written. *)
Definition summary_drift_nowhere : WhylogsSummaryDriftOperator.t :=
  WhylogsSummaryDriftOperator.init
    "data/profile.bin" "data/profile.bin" "" (Some (Some "local")) None.

(** A constraints task pointed at a profile that is not there. *)
Definition check_missing : WhylogsConstraintsOperator.t simple :=
  WhylogsConstraintsOperator.mk (L:=simple)
    (Some "data/missing.bin") (Some "local") (Some (0%Z, 10%Z)) None None.

End SimpleLibrary.

(* ===================================================================== *)
(** ** Properties of the CI-group context manager *)
(* ===================================================================== *)

Module CiGroupSpec.
Import CiGroup.

Lemma no_group_same_flag E st st' :
  _in_ci_group st' = _in_ci_group st -> no_group E st' = no_group E st.
Proof. unfold no_group. by intros ->. Qed.

Lemma no_group_true_iff E st :
  no_group E st = true <->
  _in_ci_group st = true \/ skip_group_putput E = true
  \/ environ_get E "GITHUB_ACTIONS" "false" <> "true".
Proof.
  unfold no_group. rewrite !orb_true_iff, negb_true_iff.
  rewrite <- (not_true_iff_false (String.eqb _ _)), String.eqb_eq. tauto.
Qed.

Lemma no_group_false_iff E st :
  no_group E st = false <->
  _in_ci_group st = false /\ skip_group_putput E = false
  /\ environ_get E "GITHUB_ACTIONS" "false" = "true".
Proof.
  unfold no_group. rewrite !orb_false_iff, negb_false_iff, String.eqb_eq. tauto.
Qed.

Lemma environ_get_true_iff E :
  environ_get E "GITHUB_ACTIONS" "false" = "true" <->
  environ E !! "GITHUB_ACTIONS" = Some "true".
Proof.
  unfold environ_get. destruct (environ E !! "GITHUB_ACTIONS") as [v|].
  - split; congruence.
  - split; discriminate.
Qed.

Lemma quiet_app flag ps qs : quiet flag ps -> quiet flag qs -> quiet flag (ps ++ qs).
Proof. apply Forall_app_2. Qed.

Lemma quiet_markers flag ps : quiet flag ps -> markers ps = [].
Proof.
  induction 1 as [|p ps [Hp _] _ IH]; [done|].
  unfold markers in *. simpl. by rewrite Hp.
Qed.

(** Once line 38 holds it keeps holding: every scope entered from such a
    state stops at the first [yield], so the flag is never written and no
    marker is printed, whatever the block does. *)
Lemma exec_inert E b :
  forall st, no_group E st = true ->
  exists new,
    console (exec E b st).2 = console st ++ new
    /\ quiet (_in_ci_group st) new
    /\ _in_ci_group (exec E b st).2 = _in_ci_group st.
Proof.
  induction b as [|text|exc|b1 IH1 b2 IH2|body IHb handler IHh|title mt body IHb];
    intros st Hng; simpl.
  - exists []. rewrite app_nil_r. repeat split. constructor.
  - exists [Printed (_in_ci_group st) (BlockLine text)]. repeat split.
    by repeat constructor.
  - exists []. rewrite app_nil_r. repeat split. constructor.
  - destruct (IH1 st Hng) as (n1 & Hc1 & Hq1 & Hf1).
    destruct (exec E b1 st) as [[|exc] st1]; simpl in *; [|by eauto].
    destruct (IH2 st1) as (n2 & Hc2 & Hq2 & Hf2).
    { by rewrite (no_group_same_flag E st st1). }
    exists (n1 ++ n2). rewrite Hc2, Hc1, Hf2, Hf1, app_assoc. repeat split.
    apply quiet_app; [done|]. by rewrite <- Hf1.
  - destruct (IHb st Hng) as (n1 & Hc1 & Hq1 & Hf1).
    destruct (exec E body st) as [[|exc] st1]; simpl in *; [by eauto|].
    destruct (IHh st1) as (n2 & Hc2 & Hq2 & Hf2).
    { by rewrite (no_group_same_flag E st st1). }
    exists (n1 ++ n2). rewrite Hc2, Hc1, Hf2, Hf1, app_assoc. repeat split.
    apply quiet_app; [done|]. by rewrite <- Hf1.
  - unfold ci_group_enter. rewrite Hng.
    destruct (IHb st Hng) as (n1 & Hc1 & Hq1 & Hf1).
    destruct (exec E body st) as [[|exc] st1]; simpl in *; eauto.
Qed.

(** A scope entered while line 38 holds is its body. *)
Lemma exec_with_no_group E title mt body st :
  no_group E st = true ->
  exec E (With_ci_group title mt body) st = exec E body st.
Proof.
  intros Hng. simpl. unfold ci_group_enter. rewrite Hng.
  by destruct (exec E body st) as [[|exc] st1].
Qed.

(** Claim C5.  When a group is already active, or [skip_group_putput()] is
    true, or [GITHUB_ACTIONS] does not read ["true"], the scope is a no-op:
    the generator stops at the first [yield] without touching the state, the
    scope behaves exactly as the wrapped block run on its own, none of the
    lines printed during the scope is a group marker, and [_in_ci_group] has
    the value after the scope that it had before. *)
Theorem ci_group_noop E title mt body st :
  _in_ci_group st = true \/ skip_group_putput E = true
    \/ environ_get E "GITHUB_ACTIONS" "false" <> "true" ->
  ci_group_enter E title mt st = (Yield39, st)
  /\ exec E (With_ci_group title mt body) st = exec E body st
  /\ exists new,
       console (exec E (With_ci_group title mt body) st).2 = console st ++ new
       /\ markers new = []
       /\ _in_ci_group (exec E (With_ci_group title mt body) st).2
          = _in_ci_group st.
Proof.
  intros Hng%no_group_true_iff. split; [|split].
  - unfold ci_group_enter. by rewrite Hng.
  - by apply exec_with_no_group.
  - destruct (exec_inert E (With_ci_group title mt body) st Hng)
      as (new & Hc & Hq & Hf).
    exists new. eauto using quiet_markers.
Qed.

Lemma ci_group_noop_witness :
  (_in_ci_group process_start = true \/ skip_group_putput local_env = true
     \/ environ_get local_env "GITHUB_ACTIONS" "false" <> "true")
  /\ ci_group_enter local_env "Build image" INFO process_start
      = (Yield39, process_start)
  /\ exec local_env
       (With_ci_group "Build image" INFO
          (Seq (Print "step 1") (With_ci_group "inner" INFO (Print "step 2"))))
       process_start
     = (Normal, mkState false [Printed false (BlockLine "step 1");
                               Printed false (BlockLine "step 2")]).
Proof.
  assert (H : _in_ci_group process_start = true
              \/ skip_group_putput local_env = true
              \/ environ_get local_env "GITHUB_ACTIONS" "false" <> "true").
  { right. right. vm_compute. discriminate. }
  split; [exact H|].
  destruct (ci_group_noop local_env "Build image" INFO
              (Seq (Print "step 1") (With_ci_group "inner" INFO (Print "step 2")))
              process_start H) as (He & Hx & _).
  split; [exact He|]. rewrite Hx. reflexivity.
Defined.

(** Claim C6.  With [GITHUB_ACTIONS] reading ["true"], no skip override and
    no group active, entering sets the flag and prints one start marker that
    carries the message type's value and the title; when the wrapped block
    ends normally the scope prints one end marker and clears the flag.  The
    flag is false before the scope, true at every line printed from the start
    marker to the end marker, and false after it.  Nothing the block prints is
    a marker, so scopes nested inside add none. *)
Theorem ci_group_brackets E title mt body st st2 :
  _in_ci_group st = false ->
  skip_group_putput E = false ->
  environ E !! "GITHUB_ACTIONS" = Some "true" ->
  exec E body (mkState true (console st ++ [Printed true (GroupStart mt title)]))
    = (Normal, st2) ->
  ci_group_enter E title mt st
    = (Yield43, mkState true (console st ++ [Printed true (GroupStart mt title)]))
  /\ render (GroupStart mt title)
      = "::group::[" +:+ value mt +:+ "]" +:+ title +:+ "[/]"
  /\ exists mid,
       exec E (With_ci_group title mt body) st
         = (Normal,
            mkState false
              (console st ++ Printed true (GroupStart mt title) :: mid
                 ++ [Printed true GroupEnd]))
       /\ quiet true mid
       /\ length (starts (Printed true (GroupStart mt title) :: mid
                            ++ [Printed true GroupEnd])) = 1
       /\ length (ends (Printed true (GroupStart mt title) :: mid
                          ++ [Printed true GroupEnd])) = 1.
Proof.
  intros Hflag Hskip Henv%environ_get_true_iff Hbody.
  assert (Hng : no_group E st = false) by by apply no_group_false_iff.
  assert (Hent : ci_group_enter E title mt st
    = (Yield43, mkState true (console st ++ [Printed true (GroupStart mt title)]))).
  { unfold ci_group_enter. by rewrite Hng. }
  split; [done|]. split; [done|].
  set (st1 := mkState true (console st ++ [Printed true (GroupStart mt title)])) in *.
  destruct (exec_inert E body st1) as (mid & Hc & Hq & Hf).
  { apply no_group_true_iff. by left. }
  rewrite Hbody in Hc, Hf. simpl in Hc, Hf, Hq.
  exists mid. split; [|split; [done|]].
  - simpl. rewrite Hent, Hbody. simpl.
    unfold set_in_ci_group, console_print. simpl.
    by rewrite Hc, Hf, <- !app_assoc.
  - assert (Hs : starts mid = [] /\ ends mid = []).
    { clear -Hq. induction Hq as [|p ps [Hp _] _ [IHs IHe]]; [done|].
      unfold starts, ends, is_marker in *. simpl.
      apply orb_false_iff in Hp as [-> ->]. done. }
    destruct Hs as [Hs He]. unfold starts, ends in *. simpl.
    rewrite !List.filter_app, Hs, He. done.
Qed.

Lemma ci_group_brackets_witness :
  _in_ci_group process_start = false
  /\ skip_group_putput github_env = false
  /\ environ github_env !! "GITHUB_ACTIONS" = Some "true"
  /\ exec github_env
       (Seq (Print "step 1") (With_ci_group "inner" INFO (Print "step 2")))
       (mkState true
          (console process_start ++ [Printed true (GroupStart INFO "Build image")]))
     = (Normal,
        mkState true [Printed true (GroupStart INFO "Build image");
                      Printed true (BlockLine "step 1");
                      Printed true (BlockLine "step 2")])
  /\ exists mid,
       exec github_env
         (With_ci_group "Build image" INFO
            (Seq (Print "step 1") (With_ci_group "inner" INFO (Print "step 2"))))
         process_start
       = (Normal,
          mkState false
            (console process_start
               ++ Printed true (GroupStart INFO "Build image") :: mid
               ++ [Printed true GroupEnd]))
       /\ quiet true mid.
Proof.
  do 4 (split; [reflexivity|]).
  destruct (ci_group_brackets github_env "Build image" INFO
              (Seq (Print "step 1") (With_ci_group "inner" INFO (Print "step 2")))
              process_start
              (mkState true [Printed true (GroupStart INFO "Build image");
                             Printed true (BlockLine "step 1");
                             Printed true (BlockLine "step 2")])
              eq_refl eq_refl eq_refl eq_refl)
    as (_ & _ & mid & Hx & Hq & _).
  exists mid. split; [exact Hx | exact Hq].
Defined.

(** Claim C10.  Line 38 compares [os.environ.get('GITHUB_ACTIONS', 'false')]
    with the exact string ["true"].  Whenever the variable is unset (the
    lookup then yields the default ["false"]) or holds any other string, the
    scope takes the no-op path and no marker is printed. *)
Theorem github_actions_exact_true E title mt body st :
  environ E !! "GITHUB_ACTIONS" <> Some "true" ->
  (environ E !! "GITHUB_ACTIONS" = None
     -> environ_get E "GITHUB_ACTIONS" "false" = "false")
  /\ no_group E st = true
  /\ ci_group_enter E title mt st = (Yield39, st)
  /\ exec E (With_ci_group title mt body) st = exec E body st
  /\ exists new,
       console (exec E (With_ci_group title mt body) st).2 = console st ++ new
       /\ markers new = [].
Proof.
  intros Hne.
  assert (Hng : no_group E st = true).
  { apply no_group_true_iff. right. right. by rewrite environ_get_true_iff. }
  split; [|split; [done|split; [|split]]].
  - unfold environ_get. by intros ->.
  - unfold ci_group_enter. by rewrite Hng.
  - by apply exec_with_no_group.
  - destruct (exec_inert E (With_ci_group title mt body) st Hng)
      as (new & Hc & Hq & _).
    exists new. eauto using quiet_markers.
Qed.

Lemma github_actions_exact_true_witness :
  environ (mkEnv {[ "GITHUB_ACTIONS" := "True" ]} false) !! "GITHUB_ACTIONS"
    <> Some "true"
  /\ exec (mkEnv {[ "GITHUB_ACTIONS" := "True" ]} false)
       (With_ci_group "Build image" INFO (Print "step 1")) process_start
     = (Normal, mkState false [Printed false (BlockLine "step 1")]).
Proof.
  assert (H : environ (mkEnv {[ "GITHUB_ACTIONS" := "True" ]} false)
                !! "GITHUB_ACTIONS" <> Some "true").
  { vm_compute. discriminate. }
  split; [exact H|].
  destruct (github_actions_exact_true (mkEnv {[ "GITHUB_ACTIONS" := "True" ]} false)
              "Build image" INFO (Print "step 1") process_start H)
    as (_ & _ & _ & Hx & _).
  rewrite Hx. reflexivity.
Defined.

(** The same check at the other values the claim names. *)
Example github_actions_one :
  no_group (mkEnv {[ "GITHUB_ACTIONS" := "1" ]} false) process_start = true.
Proof. reflexivity. Qed.

Example github_actions_unset :
  environ_get local_env "GITHUB_ACTIONS" "false" = "false"
  /\ no_group local_env process_start = true.
Proof. split; reflexivity. Qed.

Example github_actions_true :
  no_group github_env process_start = false.
Proof. reflexivity. Qed.

(** Claim C4, at the input where the code departs from it.  A block that
    raises inside an active group leaves the scope with [_in_ci_group] still
    true and without an end marker: [gen.throw] raises at the [yield] of line
    43, which is not inside a [try], so lines 44-45 never run.  When the
    caller catches the exception and goes on, the next top-level scope finds
    the flag set and prints no markers at all. *)
Theorem ci_group_exception_leaves_flag_set :
  _in_ci_group process_start = false
  /\ exec github_env (With_ci_group "Build image" INFO (Raise "CalledProcessError"))
       process_start
     = (Raised "CalledProcessError",
        mkState true [Printed true (GroupStart INFO "Build image")])
  /\ exec github_env
       (Seq (TryExcept
               (With_ci_group "Build image" INFO (Raise "CalledProcessError"))
               Pass)
            (With_ci_group "Run tests" INFO (Print "ok")))
       process_start
     = (Normal,
        mkState true [Printed true (GroupStart INFO "Build image");
                      Printed true (BlockLine "ok")]).
Proof. repeat split. Qed.

End CiGroupSpec.

(* ===================================================================== *)
(** ** Properties of the whylogs operators *)
(* ===================================================================== *)

Module WhylogsSpec.
Import Whylogs.

Section Constraints.
Context {L : Library}.
Import WhylogsConstraintsOperator.

(** Resolving the constraints writes nothing to the task log. *)
Lemma get_or_create_constraints_log (self : t L) st :
  log (_get_or_create_constraints self st).2 = log st.
Proof.
  unfold _get_or_create_constraints.
  destruct (constraints self); [done|].
  unfold_monad. repeat (next_call; try done).
Qed.

(** Claim C9.  [_get_or_create_constraints] returns a [Constraints] object
    given at construction as it is, without a single library call and
    whatever [profile_path], [reader] and [constraint] hold.  When none was
    given it reads the profile at [profile_path] through the reader named
    [reader], takes its view, makes a builder for that view, adds
    [constraint] to it, once, and returns what the builder builds. *)
Theorem get_or_create_constraints_resolution (self : t L) st :
  (forall cs, constraints self = Some cs ->
     _get_or_create_constraints self st = (Ok cs, st))
  /\ (constraints self = None ->
      forall r p v b cs w1 w2 w3 w4 w5 w6,
        why_reader L (reader self) (world st) = (inr r, w1) ->
        read L r (profile_path self) w1 = (inr p, w2) ->
        view L p w2 = (inr v, w3) ->
        ConstraintsBuilder L v w3 = (inr b, w4) ->
        add_constraint L b (constraint self) w4 = (inr tt, w5) ->
        build L b w5 = (inr cs, w6) ->
        _get_or_create_constraints self st
        = (Ok cs,
           mkState w6
             (calls st ++ [(Call_why_reader (reader self), None);
                           (Call_read r (profile_path self), None);
                           (Call_view p, None);
                           (Call_ConstraintsBuilder v, None);
                           (Call_add_constraint b (constraint self), None);
                           (Call_build b, None)])
             (log st))).
Proof.
  unfold _get_or_create_constraints. split.
  - intros cs ->. done.
  - intros -> r p v b cs w1 w2 w3 w4 w5 w6 H1 H2 H3 H4 H5 H6.
    unfold_monad. rewrite H1. simpl. rewrite H2. simpl. rewrite H3. simpl.
    rewrite H4. simpl. rewrite H5. simpl. rewrite H6. simpl.
    by rewrite <- !app_assoc.
Qed.

(** Claim C1.  When validation yields [False] and [break_pipeline] is true,
    [execute] logs the report at error level and then raises
    [AirflowFailException("Constraints didn't meet the criteria")]; nothing
    is returned. *)
Theorem execute_fails_and_breaks (self : t L) st cs st1 w2 rep w3 :
  _get_or_create_constraints self st = (Ok cs, st1) ->
  validate L cs (world st1) = (inr false, w2) ->
  report L cs w2 = (inr rep, w3) ->
  truthy (break_pipeline self) = true ->
  execute self st
  = (Raise (AirflowFailException "Constraints didn't meet the criteria"),
     mkState w3
       (calls st1 ++ [(Call_validate cs, None); (Call_report cs, None)])
       (log st ++ [(ERROR, ReportObject rep)])).
Proof.
  intros Hget Hval Hrep Hbp.
  pose proof (get_or_create_constraints_log self st) as Hlog.
  rewrite Hget in Hlog. simpl in Hlog.
  unfold execute, bind at 1. rewrite Hget.
  unfold_monad. rewrite Hval. simpl. rewrite Hbp. simpl. rewrite Hrep. simpl.
  by rewrite Hlog, <- !app_assoc.
Qed.

(** Claim C2.  When validation yields [True], [execute] logs the report at
    info level and returns [True], whatever [break_pipeline] holds. *)
Theorem execute_passes (self : t L) st cs st1 w2 rep w3 :
  _get_or_create_constraints self st = (Ok cs, st1) ->
  validate L cs (world st1) = (inr true, w2) ->
  report L cs w2 = (inr rep, w3) ->
  execute self st
  = (Ok true,
     mkState w3
       (calls st1 ++ [(Call_validate cs, None); (Call_report cs, None)])
       (log st ++ [(INFO, ReportObject rep)])).
Proof.
  intros Hget Hval Hrep.
  pose proof (get_or_create_constraints_log self st) as Hlog.
  rewrite Hget in Hlog. simpl in Hlog.
  unfold execute, bind at 1. rewrite Hget.
  unfold_monad. rewrite Hval. simpl. rewrite Hrep. simpl.
  by rewrite Hlog, <- !app_assoc.
Qed.

(** Claim C3.  When validation yields [False] and [break_pipeline] is not
    true ([False] or [None]), [execute] logs the report at warning level,
    raises nothing and returns [False]. *)
Theorem execute_fails_and_warns (self : t L) st cs st1 w2 rep w3 :
  _get_or_create_constraints self st = (Ok cs, st1) ->
  validate L cs (world st1) = (inr false, w2) ->
  report L cs w2 = (inr rep, w3) ->
  truthy (break_pipeline self) = false ->
  execute self st
  = (Ok false,
     mkState w3
       (calls st1 ++ [(Call_validate cs, None); (Call_report cs, None)])
       (log st ++ [(WARNING, ReportObject rep)])).
Proof.
  intros Hget Hval Hrep Hbp.
  pose proof (get_or_create_constraints_log self st) as Hlog.
  rewrite Hget in Hlog. simpl in Hlog.
  unfold execute, bind at 1. rewrite Hget.
  unfold_monad. rewrite Hval. simpl. rewrite Hbp. simpl. rewrite Hrep. simpl.
  by rewrite Hlog, <- !app_assoc.
Qed.

End Constraints.

Section SummaryDrift.
Context {L : Library}.
Import WhylogsSummaryDriftOperator.

(** Claim C7.  When both profiles can be read and the report can be
    written, [execute] makes exactly these library calls, in this order: the
    reader named [reader] reads the reference profile and then the target
    profile, the drift report is built from the two views, and the writer
    named [writer] writes it to [write_report_path].  It then logs one line
    at info level and returns [None]. *)
Theorem execute_writes_report (self : t) (st : state (L:=L)) r1 p1 v1 r2 p2 v2 rep wr
    w1 w2 w3 w4 w5 w6 w7 w8 w9 :
  why_reader L (reader self) (world st) = (inr r1, w1) ->
  read L r1 (Some (reference_profile_path self)) w1 = (inr p1, w2) ->
  view L p1 w2 = (inr v1, w3) ->
  why_reader L (reader self) w3 = (inr r2, w4) ->
  read L r2 (Some (target_profile_path self)) w4 = (inr p2, w5) ->
  view L p2 w5 = (inr v2, w6) ->
  SummaryDriftReport L v1 v2 w6 = (inr rep, w7) ->
  writer_of L rep (writer self) w7 = (inr wr, w8) ->
  write L wr (write_report_path self) w8 = (inr tt, w9) ->
  execute self st
  = (Ok tt,
     mkState w9
       (calls st ++ [(Call_why_reader (reader self), None);
                     (Call_read r1 (Some (reference_profile_path self)), None);
                     (Call_view p1, None);
                     (Call_why_reader (reader self), None);
                     (Call_read r2 (Some (target_profile_path self)), None);
                     (Call_view p2, None);
                     (Call_SummaryDriftReport v1 v2, None);
                     (Call_writer rep (writer self), None);
                     (Call_write wr (write_report_path self), None)])
       (log st ++ [(INFO,
                    Text ("Whylogs' summary drift report successfully written to "
                          +:+ str (writer self)))])).
Proof.
  intros H1 H2 H3 H4 H5 H6 H7 H8 H9.
  unfold execute. unfold_monad.
  rewrite H1. simpl. rewrite H2. simpl. rewrite H3. simpl.
  rewrite H4. simpl. rewrite H5. simpl. rewrite H6. simpl.
  rewrite H7. simpl. rewrite H8. simpl. rewrite H9. simpl.
  by rewrite <- !app_assoc.
Qed.

(** Claim C8.  If any library call [execute] makes raises, that very error
    is what [execute] raises; the failed call is the last call made (nothing
    is retried and nothing else is attempted) and the task log has no new
    line, in particular no info line after a failed write. *)
Theorem execute_propagates (self : t) (st : state (L:=L)) c err :
  In (c, Some err) (drop (length (calls st)) (calls (execute self st).2)) ->
  (execute self st).1 = Raise (LibraryError err)
  /\ last (calls (execute self st).2) = Some (c, Some err)
  /\ log (execute self st).2 = log st.
Proof.
  unfold execute. unfold_monad. destruct st as [w cs lg]. simpl.
  repeat next_call;
    rewrite <- ?app_assoc; simpl; rewrite drop_app_length; simpl;
    intros H; repeat (destruct H as [H|H]; [try discriminate H|]);
    try contradiction; simplify_eq;
    (split; [done|split; [|done]]);
    by rewrite last_app.
Qed.

End SummaryDrift.

(** *** The theorems at work on [SimpleLibrary] *)

Import SimpleLibrary.

Lemma get_or_create_constraints_resolution_witness :
  WhylogsConstraintsOperator._get_or_create_constraints
    (prebuilt (7%Z, [(0%Z, 10%Z)]) None) start
  = (Ok (7%Z, [(0%Z, 10%Z)]), start)
  /\ WhylogsConstraintsOperator._get_or_create_constraints
       (check 0 10 None) start
     = (Ok (7%Z, [(0%Z, 10%Z)]), resolved 0 10).
Proof.
  destruct (get_or_create_constraints_resolution
              (prebuilt (7%Z, [(0%Z, 10%Z)]) None) start) as [Hgiven _].
  destruct (get_or_create_constraints_resolution
              (check 0 10 None) start) as [_ Hbuilt].
  split.
  - apply Hgiven. reflexivity.
  - apply (Hbuilt eq_refl "local" 7%Z 7%Z 0 (7%Z, [(0%Z, 10%Z)])
             disk disk disk
             (mkStorage (profiles disk) [(7%Z, [])] ∅)
             (mkStorage (profiles disk) [(7%Z, [(0%Z, 10%Z)])] ∅)
             (mkStorage (profiles disk) [(7%Z, [(0%Z, 10%Z)])] ∅));
      reflexivity.
Defined.

Lemma execute_fails_and_breaks_witness :
  WhylogsConstraintsOperator._get_or_create_constraints
    (check 8 10 (Some true)) start
  = (Ok (7%Z, [(8%Z, 10%Z)]), resolved 8 10)
  /\ validate simple (7%Z, [(8%Z, 10%Z)]) (world (resolved 8 10))
     = (inr false, world (resolved 8 10))
  /\ report simple (7%Z, [(8%Z, 10%Z)]) (world (resolved 8 10))
     = (inr [(8%Z, 10%Z, false)], world (resolved 8 10))
  /\ truthy (WhylogsConstraintsOperator.break_pipeline (check 8 10 (Some true)))
     = true
  /\ WhylogsConstraintsOperator.execute (check 8 10 (Some true)) start
     = (Raise (AirflowFailException "Constraints didn't meet the criteria"),
        mkState (L:=simple) (world (resolved 8 10))
          (calls (resolved 8 10)
             ++ [(Call_validate (L:=simple) (7%Z, [(8%Z, 10%Z)]), None);
                 (Call_report (L:=simple) (7%Z, [(8%Z, 10%Z)]), None)])
          (log start ++ [(ERROR, ReportObject (L:=simple) [(8%Z, 10%Z, false)])])).
Proof.
  repeat (split; [reflexivity|]).
  eapply (execute_fails_and_breaks (L:=simple)); reflexivity.
Defined.

Lemma execute_passes_witness :
  WhylogsConstraintsOperator._get_or_create_constraints
    (check 0 10 (Some true)) start
  = (Ok (7%Z, [(0%Z, 10%Z)]), resolved 0 10)
  /\ validate simple (7%Z, [(0%Z, 10%Z)]) (world (resolved 0 10))
     = (inr true, world (resolved 0 10))
  /\ report simple (7%Z, [(0%Z, 10%Z)]) (world (resolved 0 10))
     = (inr [(0%Z, 10%Z, true)], world (resolved 0 10))
  /\ WhylogsConstraintsOperator.execute (check 0 10 (Some true)) start
     = (Ok true,
        mkState (L:=simple) (world (resolved 0 10))
          (calls (resolved 0 10)
             ++ [(Call_validate (L:=simple) (7%Z, [(0%Z, 10%Z)]), None);
                 (Call_report (L:=simple) (7%Z, [(0%Z, 10%Z)]), None)])
          (log start ++ [(INFO, ReportObject (L:=simple) [(0%Z, 10%Z, true)])])).
Proof.
  repeat (split; [reflexivity|]).
  eapply (execute_passes (L:=simple)); reflexivity.
Defined.

Lemma execute_fails_and_warns_witness :
  WhylogsConstraintsOperator._get_or_create_constraints
    (check 8 10 None) start
  = (Ok (7%Z, [(8%Z, 10%Z)]), resolved 8 10)
  /\ validate simple (7%Z, [(8%Z, 10%Z)]) (world (resolved 8 10))
     = (inr false, world (resolved 8 10))
  /\ report simple (7%Z, [(8%Z, 10%Z)]) (world (resolved 8 10))
     = (inr [(8%Z, 10%Z, false)], world (resolved 8 10))
  /\ truthy (WhylogsConstraintsOperator.break_pipeline (check 8 10 None)) = false
  /\ WhylogsConstraintsOperator.execute (check 8 10 None) start
     = (Ok false,
        mkState (L:=simple) (world (resolved 8 10))
          (calls (resolved 8 10)
             ++ [(Call_validate (L:=simple) (7%Z, [(8%Z, 10%Z)]), None);
                 (Call_report (L:=simple) (7%Z, [(8%Z, 10%Z)]), None)])
          (log start ++ [(WARNING, ReportObject (L:=simple) [(8%Z, 10%Z, false)])])).
Proof.
  repeat (split; [reflexivity|]).
  eapply (execute_fails_and_warns (L:=simple)); reflexivity.
Defined.

Lemma execute_writes_report_witness :
  WhylogsSummaryDriftOperator.execute (L:=simple) summary_drift start
  = (Ok tt,
     mkState (L:=simple)
       (mkStorage (profiles disk) [] {[ "data/Profile.html" := (7%Z, 7%Z) ]})
       [(Call_why_reader (Some "local"), None);
        (Call_read (L:=simple) "local" (Some "data/profile.bin"), None);
        (Call_view (L:=simple) 7%Z, None);
        (Call_why_reader (Some "local"), None);
        (Call_read (L:=simple) "local" (Some "data/profile.bin"), None);
        (Call_view (L:=simple) 7%Z, None);
        (Call_SummaryDriftReport (L:=simple) 7%Z 7%Z, None);
        (Call_writer (L:=simple) (7%Z, 7%Z) (Some "local"), None);
        (Call_write (L:=simple) (7%Z, 7%Z) "data/Profile.html", None)]
       [(INFO, Text "Whylogs' summary drift report successfully written to local")]).
Proof.
  apply (execute_writes_report (L:=simple) summary_drift start
           "local" 7%Z 7%Z "local" 7%Z 7%Z (7%Z, 7%Z) (7%Z, 7%Z)
           disk disk disk disk disk disk disk disk
           (mkStorage (profiles disk) [] {[ "data/Profile.html" := (7%Z, 7%Z) ]}));
    reflexivity.
Defined.

Lemma execute_propagates_witness :
  In (Call_write (L:=simple) (7%Z, 7%Z) "", Some "IsADirectoryError")
     (drop (length (calls start))
        (calls (WhylogsSummaryDriftOperator.execute (L:=simple)
                  summary_drift_nowhere start).2))
  /\ (WhylogsSummaryDriftOperator.execute (L:=simple) summary_drift_nowhere start).1
     = Raise (LibraryError (L:=simple) "IsADirectoryError")
  /\ log (WhylogsSummaryDriftOperator.execute (L:=simple)
            summary_drift_nowhere start).2 = [].
Proof.
  assert (H : In (Call_write (L:=simple) (7%Z, 7%Z) "", Some "IsADirectoryError")
     (drop (length (calls start))
        (calls (WhylogsSummaryDriftOperator.execute (L:=simple)
                  summary_drift_nowhere start).2))).
  { vm_compute. do 8 right. left. reflexivity. }
  split; [exact H|].
  destruct (execute_propagates (L:=simple) summary_drift_nowhere start _ _ H)
    as (Hraise & _ & Hlog).
  split; [exact Hraise | exact Hlog].
Defined.

End WhylogsSpec.

(* ===================================================================== *)
(** ** Further properties of the CI-group context manager *)
(* ===================================================================== *)

Module CiGroupMore.
Import CiGroup CiGroupSpec.

Lemma track_app opened ps qs :
  track opened (ps ++ qs) = track opened ps ≫= fun o => track o qs.
Proof.
  revert opened. induction ps as [|p ps IH]; intros opened; simpl; [done|].
  destruct (content p); destruct opened; simpl; auto.
Qed.

Lemma own_lines_app ps qs : own_lines (ps ++ qs) = own_lines ps ++ own_lines qs.
Proof.
  induction ps as [|p ps IH]; simpl; [done|].
  destruct (content p); simpl; by rewrite ?IH.
Qed.

(** The flag and the console never disagree: the markers a run prints are
    well nested when read from the flag it started with, and they end with a
    group open exactly when the flag is left set. *)
Lemma exec_grows_tracked E b :
  forall st, exists new,
    console (exec E b st).2 = console st ++ new
    /\ track (_in_ci_group st) new = Some (_in_ci_group (exec E b st).2).
Proof.
  induction b as [|text|exc|b1 IH1 b2 IH2|body IHb handler IHh|title mt body IHb];
    intros st; simpl.
  - exists []. by rewrite app_nil_r.
  - by eexists.
  - exists []. by rewrite app_nil_r.
  - destruct (IH1 st) as (n1 & C1 & T1).
    destruct (exec E b1 st) as [[|exc] st1]; simpl in *; [|by eauto].
    destruct (IH2 st1) as (n2 & C2 & T2). exists (n1 ++ n2).
    rewrite C2, C1, app_assoc, track_app, T1. done.
  - destruct (IHb st) as (n1 & C1 & T1).
    destruct (exec E body st) as [[|exc] st1]; simpl in *; [by eauto|].
    destruct (IHh st1) as (n2 & C2 & T2). exists (n1 ++ n2).
    rewrite C2, C1, app_assoc, track_app, T1. done.
  - unfold ci_group_enter. destruct (no_group E st) eqn:Hng.
    + destruct (IHb st) as (n1 & C1 & T1).
      destruct (exec E body st) as [[|exc] st1]; simpl in *; eauto.
    + apply no_group_false_iff in Hng as (Hflag & _ & _).
      unfold set_in_ci_group, console_print. simpl.
      set (st1 := mkState true (console st ++ [Printed true (GroupStart mt title)])).
      destruct (IHb st1) as (n1 & C1 & T1).
      destruct (exec_inert E body st1) as (_ & _ & _ & Hf).
      { apply no_group_true_iff. by left. }
      destruct (exec E body st1) as [[|exc] st2]; simpl in *.
      * exists (Printed true (GroupStart mt title) :: n1 ++ [Printed true GroupEnd]).
        rewrite C1, Hf, Hflag, <- !app_assoc. split; [done|].
        simpl. by rewrite track_app, T1, Hf.
      * exists (Printed true (GroupStart mt title) :: n1).
        rewrite C1, Hflag, <- !app_assoc. split; [done|]. done.
Qed.

(** The console only grows, and by exactly [printed_by]. *)
Lemma exec_console E b st :
  console (exec E b st).2 = console st ++ printed_by E b st.
Proof.
  destruct (exec_grows_tracked E b st) as (new & Hnew & _). unfold printed_by.
  by rewrite Hnew, drop_app_length.
Qed.

Lemma printed_by_unique E b st new :
  console (exec E b st).2 = console st ++ new -> printed_by E b st = new.
Proof. intros H. unfold printed_by. by rewrite H, drop_app_length. Qed.

Lemma track_counts ps :
  forall opened final,
    track opened ps = Some final ->
    length (starts ps) + Nat.b2n opened = length (ends ps) + Nat.b2n final.
Proof.
  unfold starts, ends.
  induction ps as [|p ps IH]; intros opened final H; simpl in *.
  - by simplify_eq.
  - destruct (content p); destruct opened; simpl in *; try done;
      apply IH in H; simpl in H; lia.
Qed.

(** X1.  In every run, from every state, the group markers printed are well
    nested when read from the value [_in_ci_group] had at the start: a start
    marker is never printed while a group is open, an end marker never while
    none is, and a group is open at the end exactly when the flag is left
    set.  So at most one group is open at any time, exceptions or not. *)
Theorem markers_follow_flag E b st :
  track (_in_ci_group st) (printed_by E b st)
  = Some (_in_ci_group (exec E b st).2).
Proof.
  destruct (exec_grows_tracked E b st) as (new & Hnew & Htrack).
  by rewrite (printed_by_unique E b st new Hnew).
Qed.

(** X2.  Code that never raises always leaves [ci_group] scopes the normal
    way: it ends normally, [_in_ci_group] has the value it started with, and
    it has printed as many end markers as start markers. *)
Theorem raise_free_restores_flag E b st :
  raise_free b = true ->
  (exec E b st).1 = Normal
  /\ _in_ci_group (exec E b st).2 = _in_ci_group st
  /\ length (starts (printed_by E b st)) = length (ends (printed_by E b st)).
Proof.
  intros Hfree.
  assert (H : forall st, (exec E b st).1 = Normal
                         /\ _in_ci_group (exec E b st).2 = _in_ci_group st).
  { clear st.
    induction b as [|text|exc|b1 IH1 b2 IH2|body IHb handler IHh|title mt body IHb];
      intros st; simpl in *; try done.
    - apply andb_true_iff in Hfree as [F1 F2].
      destruct (IH1 F1 st) as [N1 L1].
      destruct (exec E b1 st) as [[|exc] st1]; simpl in *; [|done].
      destruct (IH2 F2 st1) as [N2 L2]. by rewrite L2.
    - apply andb_true_iff in Hfree as [F1 F2].
      destruct (IHb F1 st) as [N1 L1].
      by destruct (exec E body st) as [[|exc] st1].
    - unfold ci_group_enter. destruct (no_group E st) eqn:Hng.
      + destruct (IHb Hfree st) as [N1 L1].
        by destruct (exec E body st) as [[|exc] st1].
      + apply no_group_false_iff in Hng as (Hflag & _ & _).
        set (st1 := console_print _ _).
        destruct (IHb Hfree st1) as [N1 L1].
        destruct (exec E body st1) as [[|exc] st2]; simpl in *; done. }
  destruct (H st) as [HN HF]. split; [done|]. split; [done|].
  pose proof (markers_track := exec_grows_tracked E b st).
  destruct markers_track as (new & Hnew & Htrack).
  rewrite (printed_by_unique E b st new Hnew).
  apply track_counts in Htrack. rewrite HF in Htrack. lia.
Qed.

Lemma raise_free_restores_flag_witness :
  raise_free
    (Seq (With_ci_group "Build image" INFO
            (Seq (Print "step 1") (With_ci_group "inner" INFO (Print "step 2"))))
         (With_ci_group "Run tests" INFO (Print "ok"))) = true
  /\ exec github_env
       (Seq (With_ci_group "Build image" INFO
               (Seq (Print "step 1") (With_ci_group "inner" INFO (Print "step 2"))))
            (With_ci_group "Run tests" INFO (Print "ok")))
       process_start
     = (Normal,
        mkState false
          [Printed true (GroupStart INFO "Build image");
           Printed true (BlockLine "step 1");
           Printed true (BlockLine "step 2");
           Printed true GroupEnd;
           Printed true (GroupStart INFO "Run tests");
           Printed true (BlockLine "ok");
           Printed true GroupEnd])
  /\ _in_ci_group
       (exec github_env
          (Seq (With_ci_group "Build image" INFO
                  (Seq (Print "step 1") (With_ci_group "inner" INFO (Print "step 2"))))
               (With_ci_group "Run tests" INFO (Print "ok")))
          process_start).2
     = _in_ci_group process_start.
Proof.
  split; [reflexivity|]. split; [reflexivity|].
  apply (raise_free_restores_flag github_env
           (Seq (With_ci_group "Build image" INFO
                   (Seq (Print "step 1") (With_ci_group "inner" INFO (Print "step 2"))))
                (With_ci_group "Run tests" INFO (Print "ok")))
           process_start eq_refl).
Defined.

(** X3.  When the wrapped block raises inside a group this scope opened, the
    scope raises the same exception, prints no end marker and leaves
    [_in_ci_group] set; from then on no code run in the process prints a
    group marker again. *)
Theorem exception_leaves_group_open E title mt body st exc st2 :
  _in_ci_group st = false ->
  skip_group_putput E = false ->
  environ E !! "GITHUB_ACTIONS" = Some "true" ->
  exec E body (mkState true (console st ++ [Printed true (GroupStart mt title)]))
    = (Raised exc, st2) ->
  exec E (With_ci_group title mt body) st = (Raised exc, st2)
  /\ _in_ci_group st2 = true
  /\ (exists mid,
        console st2 = console st ++ Printed true (GroupStart mt title) :: mid
        /\ quiet true mid)
  /\ ends (printed_by E (With_ci_group title mt body) st) = []
  /\ forall later, markers (printed_by E later st2) = [].
Proof.
  intros Hflag Hskip Henv%environ_get_true_iff Hbody.
  assert (Hng : no_group E st = false) by by apply no_group_false_iff.
  set (st1 := mkState true (console st ++ [Printed true (GroupStart mt title)])) in *.
  assert (Hent : ci_group_enter E title mt st = (Yield43, st1)).
  { unfold ci_group_enter. by rewrite Hng. }
  assert (Hrun : exec E (With_ci_group title mt body) st = (Raised exc, st2)).
  { simpl. by rewrite Hent, Hbody. }
  destruct (exec_inert E body st1) as (mid & Hc & Hq & Hf).
  { apply no_group_true_iff. by left. }
  rewrite Hbody in Hc, Hf. simpl in Hc, Hf, Hq.
  assert (Hcons : console st2 = console st ++ Printed true (GroupStart mt title) :: mid).
  { by rewrite Hc, <- app_assoc. }
  split; [done|]. split; [done|]. split; [by eauto|]. split.
  - rewrite (printed_by_unique E _ st (Printed true (GroupStart mt title) :: mid))
      by by rewrite Hrun.
    clear -Hq. unfold ends. simpl.
    induction Hq as [|p ps [Hp _] _ IH]; [done|].
    simpl. unfold is_marker in Hp. apply orb_false_iff in Hp as [_ ->]. done.
  - intros later.
    destruct (exec_inert E later st2) as (new & Hc' & Hq' & _).
    { apply no_group_true_iff. by left. }
    rewrite (printed_by_unique E later st2 new Hc').
    by apply quiet_markers with (_in_ci_group st2).
Qed.

Lemma exception_leaves_group_open_witness :
  _in_ci_group process_start = false
  /\ skip_group_putput github_env = false
  /\ environ github_env !! "GITHUB_ACTIONS" = Some "true"
  /\ exec github_env (Seq (Print "step 1") (Raise "CalledProcessError"))
       (mkState true
          (console process_start ++ [Printed true (GroupStart INFO "Build image")]))
     = (Raised "CalledProcessError",
        mkState true [Printed true (GroupStart INFO "Build image");
                      Printed true (BlockLine "step 1")])
  /\ exec github_env
       (With_ci_group "Build image" INFO
          (Seq (Print "step 1") (Raise "CalledProcessError")))
       process_start
     = (Raised "CalledProcessError",
        mkState true [Printed true (GroupStart INFO "Build image");
                      Printed true (BlockLine "step 1")]).
Proof.
  do 4 (split; [reflexivity|]).
  apply (exception_leaves_group_open github_env "Build image" INFO
           (Seq (Print "step 1") (Raise "CalledProcessError")) process_start
           "CalledProcessError"
           (mkState true [Printed true (GroupStart INFO "Build image");
                          Printed true (BlockLine "step 1")])
           eq_refl eq_refl eq_refl eq_refl).
Defined.

(** Own lines and outcome do not depend on where a run starts, as long as the
    own lines printed before agree. *)
Lemma strip_same_work E E' b :
  forall st st',
    own_lines (console st) = own_lines (console st') ->
    (exec E b st).1 = (exec E' (strip b) st').1
    /\ own_lines (console (exec E b st).2)
       = own_lines (console (exec E' (strip b) st').2).
Proof.
  induction b as [|text|exc|b1 IH1 b2 IH2|body IHb handler IHh|title mt body IHb];
    intros st st' Hown; simpl.
  - done.
  - split; [done|]. by rewrite !own_lines_app, Hown.
  - done.
  - destruct (IH1 st st' Hown) as [O1 L1].
    destruct (exec E b1 st) as [[|exc] st1];
      destruct (exec E' (strip b1) st') as [[|exc'] st1']; simpl in *;
      try done. by apply IH2.
  - destruct (IHb st st' Hown) as [O1 L1].
    destruct (exec E body st) as [[|exc] st1];
      destruct (exec E' (strip body) st') as [[|exc'] st1']; simpl in *;
      try done. by apply IHh.
  - unfold ci_group_enter. destruct (no_group E st).
    + destruct (IHb st st' Hown) as [O1 L1].
      by destruct (exec E body st) as [[|exc] st1].
    + set (st1 := console_print _ _).
      destruct (IHb st1 st') as [O1 L1].
      { subst st1. simpl. rewrite own_lines_app. simpl. by rewrite app_nil_r. }
      destruct (exec E body st1) as [[|exc] st2]; simpl in *; [|done].
      split; [done|]. rewrite own_lines_app. simpl. by rewrite app_nil_r.
Qed.

(** X4.  [ci_group] changes nothing but the markers: under any environment
    and from any state, code with its [with ci_group(...):] statements ends
    the same way (normally, or with the same exception) and prints the same
    lines of its own, in the same order, as that code with every such
    statement replaced by its body, run under any other environment. *)
Theorem ci_group_only_adds_markers E E' b st :
  (exec E b st).1 = (exec E' (strip b) st).1
  /\ own_lines (printed_by E b st) = own_lines (printed_by E' (strip b) st).
Proof.
  destruct (strip_same_work E E' b st st eq_refl) as [Hout Hown].
  split; [done|].
  rewrite (exec_console E b st), (exec_console E' (strip b) st) in Hown.
  rewrite !own_lines_app in Hown. by apply app_inv_head in Hown.
Qed.

End CiGroupMore.

(* ===================================================================== *)
(** ** Further properties of the whylogs operators *)
(* ===================================================================== *)

Module WhylogsMore.
Import Whylogs WhylogsSpec.

Section Constraints.
Context {L : Library}.
Import WhylogsConstraintsOperator.

(** Whatever resolving the constraints raises comes from the library. *)
Lemma get_or_create_constraints_raises (self : t L) st e st1 :
  _get_or_create_constraints self st = (Raise e, st1) ->
  exists err, e = LibraryError err.
Proof.
  unfold _get_or_create_constraints.
  destruct (constraints self); [done|].
  unfold_monad. repeat (next_call; try done); intros; simplify_eq; eauto.
Qed.

(** X5.  If any library call made by [WhylogsConstraintsOperator.execute]
    raises (resolving the reader, reading the profile, building the
    constraints, validating, or reporting), [execute] raises that same
    error, the failed call is the last library call made, and nothing is
    written to the task log. *)
Theorem constraints_execute_propagates (self : t L) st c err :
  In (c, Some err) (calls_by (execute self) st) ->
  (execute self st).1 = Raise (LibraryError err)
  /\ last (calls (execute self st).2) = Some (c, Some err)
  /\ log (execute self st).2 = log st.
Proof.
  unfold calls_by, execute, _get_or_create_constraints.
  destruct (constraints self); destruct (truthy (break_pipeline self));
    unfold_monad; destruct st as [w cs lg]; simpl;
    repeat first [split_result | next_call];
    rewrite <- ?app_assoc; simpl; rewrite drop_app_length; simpl;
    intros H; repeat (destruct H as [H|H]; [try discriminate H|]);
    try contradiction; simplify_eq;
    (split; [done|split; [|done]]);
    by rewrite last_app.
Qed.

(** X6.  [execute] raises [AirflowFailException] only in one situation: the
    constraints were resolved, [validate()] returned [False], [report()]
    returned, and [break_pipeline] is true.  The message is then the fixed
    one and the report has been logged at error level, as the only new log
    record. *)
Theorem airflow_fail_only_when_breaking (self : t L) st msg st' :
  execute self st = (Raise (AirflowFailException msg), st') ->
  msg = "Constraints didn't meet the criteria"
  /\ truthy (break_pipeline self) = true
  /\ exists cs st1 w2 rep w3,
       _get_or_create_constraints self st = (Ok cs, st1)
       /\ validate L cs (world st1) = (inr false, w2)
       /\ report L cs w2 = (inr rep, w3)
       /\ log st' = log st ++ [(ERROR, ReportObject rep)].
Proof.
  intros H. unfold execute in H. unfold bind at 1 in H.
  pose proof (get_or_create_constraints_log self st) as Hlog.
  destruct (_get_or_create_constraints self st) as [[cs|e] st1] eqn:Hget.
  - simpl in Hlog. unfold_monad.
    destruct (validate L cs (world st1)) as [[e|b] w2] eqn:Hval; simpl in H;
      [by simplify_eq|].
    destruct b, (truthy (break_pipeline self)) eqn:Hbp; simpl in H;
      destruct (report L cs w2) as [[e|rep] w3] eqn:Hrep; simpl in H;
      simplify_eq.
    split; [done|]. split; [done|].
    exists cs, st1, w2, rep, w3. simpl. by rewrite Hlog.
  - destruct (get_or_create_constraints_raises self st e st1 Hget) as [err ->].
    by simplify_eq.
Qed.

(** X7.  Whenever [execute] returns, the value returned is the one
    [validate()] gave for the resolved constraints, exactly one record was
    logged (the report, at info level for [True] and at warning level for
    [False]), and a returned [False] means [break_pipeline] is not true. *)
Theorem returned_value_is_validation (self : t L) st b st' :
  execute self st = (Ok b, st') ->
  exists cs st1 w2 rep,
    _get_or_create_constraints self st = (Ok cs, st1)
    /\ validate L cs (world st1) = (inr b, w2)
    /\ report L cs w2 = (inr rep, world st')
    /\ log st' = log st ++ [(if b then INFO else WARNING, ReportObject rep)]
    /\ (b = false -> truthy (break_pipeline self) = false).
Proof.
  intros H. unfold execute in H. unfold bind at 1 in H.
  pose proof (get_or_create_constraints_log self st) as Hlog.
  destruct (_get_or_create_constraints self st) as [[cs|e] st1] eqn:Hget;
    [|by simplify_eq].
  simpl in Hlog. unfold_monad.
  destruct (validate L cs (world st1)) as [[e|r] w2] eqn:Hval; simpl in H;
    [by simplify_eq|].
  destruct r, (truthy (break_pipeline self)) eqn:Hbp; simpl in H;
    destruct (report L cs w2) as [[e|rep] w3] eqn:Hrep; simpl in H;
    simplify_eq;
    exists cs, st1, w2, rep; simpl; by rewrite Hlog.
Qed.

(** X8.  When a [Constraints] object was given at construction, the only
    library calls [execute] makes are [validate()] and [report()] on that
    object: no reader is resolved, no profile read, no builder made. *)
Theorem prebuilt_only_validates (self : t L) st cs c o :
  constraints self = Some cs ->
  In (c, o) (calls_by (execute self) st) ->
  c = Call_validate cs \/ c = Call_report cs.
Proof.
  unfold calls_by, execute, _get_or_create_constraints. intros ->.
  destruct (truthy (break_pipeline self));
    unfold_monad; destruct st as [w cl lg]; simpl;
    repeat first [split_result | next_call];
    rewrite <- ?app_assoc; simpl; rewrite ?drop_app_length, ?drop_all; simpl;
    intros H; repeat (destruct H as [H|H]; [simplify_eq; by eauto|]);
    contradiction.
Qed.

(** X9.  One invocation is a single pass: in any run of [execute], whether
    it returns or raises, the profile is read at most once, at most one
    constraint is added, [validate()] is called at most once and [report()]
    at most once. *)
Theorem single_evaluation_pass (self : t L) st :
  made is_read (calls_by (execute self) st) <= 1
  /\ made is_add_constraint (calls_by (execute self) st) <= 1
  /\ made is_validate (calls_by (execute self) st) <= 1
  /\ made is_report (calls_by (execute self) st) <= 1.
Proof.
  unfold calls_by, execute, _get_or_create_constraints.
  destruct (constraints self); destruct (truthy (break_pipeline self));
    unfold_monad; destruct st as [w cl lg]; simpl;
    repeat first [split_result | next_call];
    rewrite <- ?app_assoc; simpl; rewrite ?drop_app_length, ?drop_all;
    unfold made; simpl; lia.
Qed.

End Constraints.

Section SummaryDrift.
Context {L : Library}.
Import WhylogsSummaryDriftOperator.

(** X10.  [WhylogsSummaryDriftOperator.execute] has two kinds of outcome
    only.  Either it returns [None] after exactly nine library calls and one
    info record; or it raises an error of the library, after at most nine
    calls and with the task log untouched.  It never raises
    [AirflowFailException] and never logs without having written. *)
Theorem summary_drift_outcomes (self : t) (st : state (L:=L)) :
  ((execute self st).1 = Ok tt
   /\ length (calls_by (execute self) st) = 9
   /\ log (execute self st).2
      = log st ++ [(INFO,
                    Text ("Whylogs' summary drift report successfully written to "
                          +:+ str (writer self)))])
  \/ (exists err,
        (execute self st).1 = Raise (LibraryError err)
        /\ length (calls_by (execute self) st) <= 9
        /\ log (execute self st).2 = log st).
Proof.
  unfold calls_by, execute. unfold_monad. destruct st as [w cl lg]. simpl.
  repeat next_call;
    rewrite <- ?app_assoc; simpl; rewrite drop_app_length; simpl;
    try (right; eexists; repeat split; [lia]);
    try match goal with u : unit |- _ => destruct u end;
    left; repeat split.
Qed.

End SummaryDrift.

(** *** The theorems at work on [SimpleLibrary] *)

Import SimpleLibrary.

Lemma constraints_execute_propagates_witness :
  In (Call_read (L:=simple) "local" (Some "data/missing.bin"),
      Some "FileNotFoundError")
     (calls_by (WhylogsConstraintsOperator.execute check_missing) start)
  /\ (WhylogsConstraintsOperator.execute check_missing start).1
     = Raise (LibraryError (L:=simple) "FileNotFoundError")
  /\ log (WhylogsConstraintsOperator.execute check_missing start).2 = [].
Proof.
  assert (H : In (Call_read (L:=simple) "local" (Some "data/missing.bin"),
                  Some "FileNotFoundError")
                 (calls_by (WhylogsConstraintsOperator.execute check_missing) start)).
  { vm_compute. right. left. reflexivity. }
  split; [exact H|].
  destruct (constraints_execute_propagates (L:=simple) check_missing start _ _ H)
    as (Hraise & _ & Hlog).
  split; [exact Hraise | exact Hlog].
Defined.

Lemma airflow_fail_only_when_breaking_witness :
  WhylogsConstraintsOperator.execute (check 8 10 (Some true)) start
  = (Raise (AirflowFailException "Constraints didn't meet the criteria"),
     mkState (L:=simple) (world (resolved 8 10))
       (calls (resolved 8 10)
          ++ [(Call_validate (L:=simple) (7%Z, [(8%Z, 10%Z)]), None);
              (Call_report (L:=simple) (7%Z, [(8%Z, 10%Z)]), None)])
       [(ERROR, ReportObject (L:=simple) [(8%Z, 10%Z, false)])])
  /\ truthy (WhylogsConstraintsOperator.break_pipeline (check 8 10 (Some true)))
     = true.
Proof.
  assert (H : WhylogsConstraintsOperator.execute (check 8 10 (Some true)) start
    = (Raise (AirflowFailException "Constraints didn't meet the criteria"),
       mkState (L:=simple) (world (resolved 8 10))
         (calls (resolved 8 10)
            ++ [(Call_validate (L:=simple) (7%Z, [(8%Z, 10%Z)]), None);
                (Call_report (L:=simple) (7%Z, [(8%Z, 10%Z)]), None)])
         [(ERROR, ReportObject (L:=simple) [(8%Z, 10%Z, false)])]))
    by reflexivity.
  split; [exact H|].
  destruct (airflow_fail_only_when_breaking (L:=simple) _ _ _ _ H) as (_ & Hbp & _).
  exact Hbp.
Defined.

Lemma returned_value_is_validation_witness :
  WhylogsConstraintsOperator.execute (check 8 10 None) start
  = (Ok false,
     mkState (L:=simple) (world (resolved 8 10))
       (calls (resolved 8 10)
          ++ [(Call_validate (L:=simple) (7%Z, [(8%Z, 10%Z)]), None);
              (Call_report (L:=simple) (7%Z, [(8%Z, 10%Z)]), None)])
       [(WARNING, ReportObject (L:=simple) [(8%Z, 10%Z, false)])])
  /\ exists cs st1 w2 rep,
       WhylogsConstraintsOperator._get_or_create_constraints (check 8 10 None) start
       = (Ok cs, st1)
       /\ validate simple cs (world st1) = (inr false, w2)
       /\ report simple cs w2 = (inr rep, world (resolved 8 10)).
Proof.
  assert (H : WhylogsConstraintsOperator.execute (check 8 10 None) start
    = (Ok false,
       mkState (L:=simple) (world (resolved 8 10))
         (calls (resolved 8 10)
            ++ [(Call_validate (L:=simple) (7%Z, [(8%Z, 10%Z)]), None);
                (Call_report (L:=simple) (7%Z, [(8%Z, 10%Z)]), None)])
         [(WARNING, ReportObject (L:=simple) [(8%Z, 10%Z, false)])]))
    by reflexivity.
  split; [exact H|].
  destruct (returned_value_is_validation (L:=simple) _ _ _ _ H)
    as (cs & st1 & w2 & rep & Hget & Hval & Hrep & _).
  exists cs, st1, w2, rep. split; [exact Hget|]. split; [exact Hval | exact Hrep].
Defined.

Lemma prebuilt_only_validates_witness :
  WhylogsConstraintsOperator.constraints (prebuilt (7%Z, [(8%Z, 10%Z)]) None)
  = Some (7%Z, [(8%Z, 10%Z)])
  /\ In (Call_report (L:=simple) (7%Z, [(8%Z, 10%Z)]), None)
       (calls_by (WhylogsConstraintsOperator.execute
                    (prebuilt (7%Z, [(8%Z, 10%Z)]) None)) start)
  /\ (Call_report (L:=simple) (7%Z, [(8%Z, 10%Z)])
       = Call_validate (L:=simple) (7%Z, [(8%Z, 10%Z)])
     \/ Call_report (L:=simple) (7%Z, [(8%Z, 10%Z)])
        = Call_report (L:=simple) (7%Z, [(8%Z, 10%Z)])).
Proof.
  assert (H : In (Call_report (L:=simple) (7%Z, [(8%Z, 10%Z)]), None)
       (calls_by (WhylogsConstraintsOperator.execute
                    (prebuilt (7%Z, [(8%Z, 10%Z)]) None)) start)).
  { vm_compute. right. left. reflexivity. }
  split; [reflexivity|]. split; [exact H|].
  exact (prebuilt_only_validates (L:=simple) (prebuilt (7%Z, [(8%Z, 10%Z)]) None)
           start (7%Z, [(8%Z, 10%Z)]) _ _ eq_refl H).
Defined.

End WhylogsMore.
